(** * aws-appsync-subscription-link: the link factory of [src/index.ts]

    A shallow embedding of [createSubscriptionHandshakeLink] and of the
    request handler it installs for control events, with the properties
    of the routing predicate, of the control-event extraction and of the
    link composition. *)

From Stdlib Require Import ssreflect.
From stdpp Require Import gmap strings list fin_maps option.

Local Open Scope general_if_scope.
Local Open Scope string_scope.
Local Open Scope Z_scope.
Set Warnings "-register-all,-rewrite-rw".

(** ** JavaScript values and the object store *)

Definition loc := positive.

(** A JavaScript value as far as this file handles it: values are only
    carried around and compared with [undefined]; objects are references
    into the store. *)
Inductive Value :=
| VUndefined
| VNull
| VBool (b : bool)
| VNum (n : Z)
| VStr (s : string)
| VRef (l : loc).

#[global] Instance Value_eq_dec : EqDecision Value.
Proof. solve_decision. Defined.

(** [typeof v] *)
Definition typeof (v : Value) : string :=
  match v with
  | VUndefined => "undefined"
  | VNull => "object"
  | VBool _ => "boolean"
  | VNum _ => "number"
  | VStr _ => "string"
  | VRef _ => "object"
  end.

(** A plain object: its own enumerable properties.  A property that holds
    [undefined] is a property all the same ([k in o] is true), which is how
    [{[k := VUndefined]}] differs from [∅]. *)
Abbreviation JSObject := (gmap string Value).

(** [o[k]]: a property that is not there reads as [undefined]. *)
Definition getProp (o : JSObject) (k : string) : Value :=
  default VUndefined (o !! k).

(** [k in o] for a plain object *)
Definition hasProp (o : JSObject) (k : string) : Prop := k ∈ dom o.

(** ** The GraphQL AST, as far as the factory reads it *)

(** A definition node of a document.  [operation] is read off every node by
    the routing predicate; on a node that has no such field (a fragment
    definition) it is [undefined], here [None]. *)
Record DefinitionNode := {
  kind : string;
  operation : option string;
  name : option string
}.

Record DocumentNode := {
  definitions : list DefinitionNode
}.

(** ** Operations *)

(** Apollo's [Operation].  [variables] is declared [Record<string, any>]; the
    field holds a reference to a plain object, and [None] stands for a field
    that is missing at run time ([undefined]).  [context] is what
    [getContext()] returns, the side channel written by non-terminating
    stages. *)
Record Operation := {
  query : DocumentNode;
  variables : option loc;
  operationName : option string;
  context : JSObject
}.

Definition withVariables (op : Operation) (l : loc) : Operation :=
  {| query := query op; variables := Some l;
     operationName := operationName op; context := context op |}.

(** The store: plain objects and operation objects, both by reference. *)
Record State := {
  objects : gmap loc JSObject;
  operations : gmap loc Operation
}.

(** ** Errors and the two monads *)

(** What can be thrown.  [DanglingReference] is the model's own: a
    reference that the store does not have, which JavaScript cannot
    produce. *)
Inductive Error :=
| TypeError (msg : string)
| InvariantError (msg : string)
| DanglingReference.

Inductive Result (A : Type) :=
| Ok (a : A)
| Throw (e : Error).
Arguments Ok {A} a.
Arguments Throw {A} e.

#[global] Instance Result_ret : MRet Result := λ A a, Ok a.
#[global] Instance Result_bind : MBind Result := λ A B f r,
  match r with
  | Ok a => f a
  | Throw e => Throw e
  end.

(** Code that reads and writes the store and may throw.  The store written
    so far survives a throw, as in JavaScript. *)
Definition M (A : Type) : Type := State → Result A * State.

#[global] Instance M_ret : MRet M := λ A a st, (Ok a, st).
#[global] Instance M_bind : MBind M := λ A B f m st,
  match m st with
  | (Ok a, st') => f a st'
  | (Throw e, st') => (Throw e, st')
  end.

Definition throw {A} (e : Error) : M A := λ st, (Throw e, st).

Definition getOperation (o : loc) : M Operation := λ st,
  match operations st !! o with
  | Some op => (Ok op, st)
  | None => (Throw DanglingReference, st)
  end.

Definition getObject (l : loc) : M JSObject := λ st,
  match objects st !! l with
  | Some obj => (Ok obj, st)
  | None => (Throw DanglingReference, st)
  end.

(** A new object gets a reference that no object of the store has. *)
Definition alloc (obj : JSObject) : M loc := λ st,
  let l := fresh (dom (objects st)) in
  (Ok l, {| objects := <[l := obj]> (objects st);
            operations := operations st |}).

(** [operation.variables = <reference>] *)
Definition setVariables (o : loc) (l : loc) : M unit := λ st,
  match operations st !! o with
  | Some op =>
      (Ok tt, {| objects := objects st;
                 operations := <[o := withVariables op l]> (operations st) |})
  | None => (Throw DanglingReference, st)
  end.

(** ** What [index.ts] imports *)

(** The reserved key is a constant of [subscription-handshake-link.ts] and
    [getMainDefinition] a function of [@apollo/client/utilities]; the
    factory is written against both, whatever they are. *)
Class Imports := {
  CONTROL_EVENTS_KEY : string;
  getMainDefinition : DocumentNode → Result DefinitionNode
}.

Definition cannotDestructure : string :=
  "Cannot destructure 'operation.variables' as it is undefined.".

Section ControlEvents.
Context `{Imports}.

(** [const { [CONTROL_EVENTS_KEY]: controlEvents, ...variables } = <vars>]:
    the value under the reserved key and a new object with every other
    own property.  Destructuring [undefined] is a [TypeError]. *)
Definition destructureVariables (vars : option loc) : M (Value * loc) :=
  match vars with
  | None =>
      throw (TypeError cannotDestructure)
  | Some l =>
      obj ← getObject l;
      rest ← alloc (delete CONTROL_EVENTS_KEY obj);
      mret (getProp obj CONTROL_EVENTS_KEY, rest)
  end.

(** The subscriber function of the observable the control-events link
    returns: its effect on the store, and the values it hands to
    [observer.next], in order.  It never calls [complete] or [error], and
    the clean-up function it returns does nothing. *)
Definition controlEventsSubscriber (operation : loc) : M (list Value) :=
  op ← getOperation operation;
  '(controlEvents, variables) ← destructureVariables (variables op);
  (if decide (typeof controlEvents ≠ "undefined")
   then setVariables operation variables
   else mret tt);;
  emitted ← alloc {[ CONTROL_EVENTS_KEY := controlEvents ]};
  mret [VRef emitted].

(** The store after the stage ran on an operation with variables. *)
Definition extracted (st : State) (o : loc) (op : Operation)
    (obj : JSObject) : Result (list Value) * State :=
  let rest := fresh (dom (objects st)) in
  let objects1 := <[rest := delete CONTROL_EVENTS_KEY obj]> (objects st) in
  let emitted := fresh (dom objects1) in
  let controlEvents := getProp obj CONTROL_EVENTS_KEY in
  (Ok [VRef emitted],
   {| objects := <[emitted := {[ CONTROL_EVENTS_KEY := controlEvents ]}]> objects1;
      operations :=
        if decide (controlEvents = VUndefined) then operations st
        else <[o := withVariables op rest]> (operations st) |}).

End ControlEvents.

(** ** Links *)

(** Modelled from the spec: the type [AppSyncRealTimeSubscriptionConfig] of
    [types.ts], a structured object carrying at least the endpoint URL plus
    settings of the real-time transport. *)
Record AppSyncRealTimeSubscriptionConfig := {
  url : string;
  realtimeSettings : gmap string Value
}.

(** A link is described by the constructor call that made it.  The classes
    [NonTerminatingLink], [SubscriptionHandshakeLink] and
    [AppSyncRealTimeSubscriptionHandshakeLink] and Apollo's [createHttpLink],
    [ApolloLink.from] and [ApolloLink.split] are collaborators of the
    factory; it only passes arguments to them. *)
Inductive ApolloLink :=
| HttpLink (uri : string)
| RequestHandlerLink (request : loc → M (list Value))
| NonTerminatingLink (name : string) (link : ApolloLink)
| SubscriptionHandshakeLink (subsInfoKey : string)
| AppSyncRealTimeSubscriptionHandshakeLink
    (config : AppSyncRealTimeSubscriptionConfig)
| LinkFrom (links : list ApolloLink)
| LinkSplit (test : Operation → Result bool) (leftLink rightLink : ApolloLink).

(** The constructor calls a piece of code makes, in order. *)
Inductive Construction :=
| CreateHttpLink (uri : string)
| NewApolloLink
| NewNonTerminatingLink (name : string)
| NewSubscriptionHandshakeLink (subsInfoKey : string)
| NewAppSyncRealTimeSubscriptionHandshakeLink
    (config : AppSyncRealTimeSubscriptionConfig)
| ApolloLinkFrom (stages : nat)
| ApolloLinkSplit.

(** Code that constructs links: its value and the calls it made. *)
Record W (A : Type) := MkW { built : A; constructed : list Construction }.
Arguments MkW {A} built constructed.
Arguments built {A} w.
Arguments constructed {A} w.

#[global] Instance W_ret : MRet W := λ A a, MkW a [].
#[global] Instance W_bind : MBind W := λ A B f w,
  let r := f (built w) in
  MkW (built r) (constructed w ++ constructed r).

Definition createHttpLink (uri : string) : W ApolloLink :=
  MkW (HttpLink uri) [CreateHttpLink uri].

Definition newApolloLink (request : loc → M (list Value)) : W ApolloLink :=
  MkW (RequestHandlerLink request) [NewApolloLink].

Definition newNonTerminatingLink (name : string) (link : ApolloLink)
  : W ApolloLink :=
  MkW (NonTerminatingLink name link) [NewNonTerminatingLink name].

Definition newSubscriptionHandshakeLink (subsInfoKey : string)
  : W ApolloLink :=
  MkW (SubscriptionHandshakeLink subsInfoKey)
      [NewSubscriptionHandshakeLink subsInfoKey].

Definition newAppSyncRealTimeSubscriptionHandshakeLink
    (config : AppSyncRealTimeSubscriptionConfig) : W ApolloLink :=
  MkW (AppSyncRealTimeSubscriptionHandshakeLink config)
      [NewAppSyncRealTimeSubscriptionHandshakeLink config].

Definition ApolloLink_from (links : list ApolloLink) : W ApolloLink :=
  MkW (LinkFrom links) [ApolloLinkFrom (length links)].

Definition ApolloLink_split (test : Operation → Result bool)
    (leftLink rightLink : ApolloLink) : W ApolloLink :=
  MkW (LinkSplit test leftLink rightLink) [ApolloLinkSplit].

(** [given || other]: [other] is evaluated only when nothing was given. *)
Definition orElse (given : option ApolloLink) (other : W ApolloLink)
  : W ApolloLink :=
  match given with
  | Some link => mret link
  | None => other
  end.

(** Modelled from the spec: [ApolloLink.split] belongs to [@apollo/client].
    The link it returns evaluates the test on every operation and hands the
    operation to the first link when the test holds, else to the second; a
    fault of the test is the fault of the dispatch.  [dispatch] is the link
    an operation is handed to. *)
Definition dispatch (link : ApolloLink) (op : Operation) : Result ApolloLink :=
  match link with
  | LinkSplit test leftLink rightLink =>
      isLeft ← test op;
      mret (if isLeft : bool then leftLink else rightLink)
  | _ => mret link
  end.

(** The two local variables of the factory, [resultsFetcherLink] and
    [subscriptionLinks], which its two branches assign and its last
    statement composes. *)
Record Links := {
  resultsFetcherLink : ApolloLink;
  subscriptionLinks : ApolloLink
}.

Section Factory.
Context `{Imports}.

(** The predicate given to [ApolloLink.split]. *)
Definition isSubscriptionOperation (op : Operation) : Result bool :=
  def ← getMainDefinition (query op);
  let graphqlOperation := operation def in
  let isSubscription :=
    bool_decide (kind def = "OperationDefinition")
    && bool_decide (graphqlOperation = Some "subscription") in
  mret isSubscription.

(** The [if (typeof infoOrUrl === "string") ... else ...] of the factory,
    which assigns the two local variables: a string is [inl], a
    configuration object [inr]. *)
Definition resolveLinks
    (infoOrUrl : string + AppSyncRealTimeSubscriptionConfig)
    (theResultsFetcherLink : option ApolloLink) : W Links :=
  match infoOrUrl with
  | inl infoOrUrl =>
      resultsFetcherLink ←
        orElse theResultsFetcherLink (createHttpLink infoOrUrl);
      controlEventsLink ← newApolloLink controlEventsSubscriber;
      controlMessages ←
        newNonTerminatingLink "controlMessages" controlEventsLink;
      subsInfo ← newNonTerminatingLink "subsInfo" resultsFetcherLink;
      handshake ← newSubscriptionHandshakeLink "subsInfo";
      subscriptionLinks ←
        ApolloLink_from [controlMessages; subsInfo; handshake];
      mret {| resultsFetcherLink := resultsFetcherLink;
              subscriptionLinks := subscriptionLinks |}
  | inr infoOrUrl =>
      let url := url infoOrUrl in
      resultsFetcherLink ← orElse theResultsFetcherLink (createHttpLink url);
      subscriptionLinks ←
        newAppSyncRealTimeSubscriptionHandshakeLink infoOrUrl;
      mret {| resultsFetcherLink := resultsFetcherLink;
              subscriptionLinks := subscriptionLinks |}
  end.

(** The factory: the branch on the first argument, then the split. *)
Definition createSubscriptionHandshakeLink
    (infoOrUrl : string + AppSyncRealTimeSubscriptionConfig)
    (theResultsFetcherLink : option ApolloLink) : W ApolloLink :=
  links ← resolveLinks infoOrUrl theResultsFetcherLink;
  ApolloLink_split isSubscriptionOperation
    (subscriptionLinks links) (resultsFetcherLink links).

End Factory.

(** ** A document collaborator to run the factory with *)

Definition isOperationType (o : option string) : bool :=
  bool_decide (o = Some "query") || bool_decide (o = Some "mutation")
  || bool_decide (o = Some "subscription").

(** Modelled from the spec: [getMainDefinition] belongs to
    [@apollo/client/utilities].  The main definition is the document's
    operation definition, fragments ignored; a document that has only
    fragments resolves to its first fragment definition, and one that has
    neither raises the collaborator's fault. *)
Fixpoint findMainDefinition (defs : list DefinitionNode)
    (fragmentDefinition : option DefinitionNode) : Result DefinitionNode :=
  match defs with
  | [] =>
      match fragmentDefinition with
      | Some fragment => Ok fragment
      | None =>
          Throw (InvariantError
            "Expected a parsed GraphQL query with a query, mutation, subscription, or a fragment.")
      end
  | definition :: rest =>
      if bool_decide (kind definition = "OperationDefinition")
         && isOperationType (operation definition)
      then Ok definition
      else if bool_decide (kind definition = "FragmentDefinition")
              && bool_decide (fragmentDefinition = None)
      then findMainDefinition rest (Some definition)
      else findMainDefinition rest fragmentDefinition
  end.

(** ** What a later stage sees *)

(** The variables of an operation, read through the store. *)
Definition variablesOf (st : State) (o : loc) : option JSObject :=
  op ← operations st !! o;
  l ← variables op;
  objects st !! l.

(** The object a value refers to. *)
Definition deref (st : State) (v : Value) : option JSObject :=
  match v with
  | VRef l => objects st !! l
  | _ => None
  end.

(** What running a request handler on operation [o] leaves to observe: the
    objects handed to the observer (or the error thrown), the variables and
    the context of [o] afterwards.  References are read through, so two
    runs that differ only in the references of the new objects have the same
    outcome. *)
Definition outcome (run : Result (list Value) * State) (o : loc)
  : Result (list (option JSObject)) * option JSObject * option JSObject :=
  (match run.1 with
   | Ok emitted => Ok (deref run.2 <$> emitted)
   | Throw e => Throw e
   end,
   variablesOf run.2 o,
   context <$> operations run.2 !! o).

(** The two branches of a split link. *)
Definition subscriptionPath (link : ApolloLink) : option ApolloLink :=
  match link with
  | LinkSplit _ leftLink _ => Some leftLink
  | _ => None
  end.

Definition nonSubscriptionPath (link : ApolloLink) : option ApolloLink :=
  match link with
  | LinkSplit _ _ rightLink => Some rightLink
  | _ => None
  end.

(** The URL a factory argument configures. *)
Definition configuredUrl
    (infoOrUrl : string + AppSyncRealTimeSubscriptionConfig) : string :=
  match infoOrUrl with
  | inl u => u
  | inr info => url info
  end.

(** ** Literal operations *)

(** Modelled from the spec: the reserved key is a single well-known string
    constant, declared in [subscription-handshake-link.ts]; the literal
    below stands for it.  The document collaborator is
    [findMainDefinition]. *)
Definition literalImports : Imports := {|
  CONTROL_EVENTS_KEY := "@@controlEvents";
  getMainDefinition := λ doc, findMainDefinition (definitions doc) None
|}.

Definition operationDefinition (operationType operationName : string)
  : DefinitionNode :=
  {| kind := "OperationDefinition"; operation := Some operationType;
     name := Some operationName |}.

Definition fragmentDefinition (fragmentName : string) : DefinitionNode :=
  {| kind := "FragmentDefinition"; operation := None;
     name := Some fragmentName |}.

(** [subscription OnEvent { ... }] after a fragment, [query GetItems { ... }],
    [mutation PutItem { ... }], and a document of one fragment. *)
Definition subscriptionDocument : DocumentNode :=
  {| definitions := [fragmentDefinition "ItemFields";
                     operationDefinition "subscription" "OnEvent"] |}.
Definition queryDocument : DocumentNode :=
  {| definitions := [operationDefinition "query" "GetItems"] |}.
Definition mutationDocument : DocumentNode :=
  {| definitions := [operationDefinition "mutation" "PutItem"] |}.
Definition fragmentDocument : DocumentNode :=
  {| definitions := [fragmentDefinition "ItemFields"] |}.

Definition operationOf (doc : DocumentNode) (vars : option loc) : Operation :=
  {| query := doc; variables := vars; operationName := None; context := ∅ |}.

(** [{ a: 1, [CONTROL_EVENTS_KEY]: {x: true} }], the inner object at
    reference 2. *)
Definition controlVariables : JSObject :=
  {[ "a" := VNum 1; "@@controlEvents" := VRef 2%positive ]}.

(** One subscription with these variables. *)
Definition controlStore : State :=
  {| objects := {[ 1%positive := controlVariables;
                   2%positive := {[ "x" := VBool true ]} ]};
     operations := {[ 1%positive := operationOf subscriptionDocument (Some 1%positive) ]} |}.

(** [{ a: 1 }] *)
Definition plainVariables : JSObject := {[ "a" := VNum 1 ]}.

Definition plainStore : State :=
  {| objects := {[ 1%positive := plainVariables ]};
     operations := {[ 1%positive := operationOf subscriptionDocument (Some 1%positive) ]} |}.

(** [{ a: 1, [CONTROL_EVENTS_KEY]: undefined }] *)
Definition undefinedVariables : JSObject :=
  {[ "a" := VNum 1; "@@controlEvents" := VUndefined ]}.

Definition undefinedStore : State :=
  {| objects := {[ 1%positive := undefinedVariables ]};
     operations := {[ 1%positive := operationOf subscriptionDocument (Some 1%positive) ]} |}.

(** [{ [CONTROL_EVENTS_KEY]: undefined }] *)
Definition onlyUndefinedVariables : JSObject :=
  {[ "@@controlEvents" := VUndefined ]}.

Definition onlyUndefinedStore : State :=
  {| objects := {[ 1%positive := onlyUndefinedVariables ]};
     operations := {[ 1%positive := operationOf subscriptionDocument (Some 1%positive) ]} |}.

(** A subscription without variables. *)
Definition absentStore : State :=
  {| objects := ∅;
     operations := {[ 1%positive := operationOf subscriptionDocument None ]} |}.

(** Two operations, a subscription and a query, that share one variables
    object. *)
Definition sharedStore : State :=
  {| objects := {[ 1%positive := controlVariables;
                   2%positive := {[ "x" := VBool true ]} ]};
     operations := {[ 1%positive := operationOf subscriptionDocument (Some 1%positive);
                      2%positive := operationOf queryDocument (Some 1%positive) ]} |}.

Definition realtimeConfig : AppSyncRealTimeSubscriptionConfig :=
  {| url := "wss://example/realtime";
     realtimeSettings := {[ "region" := VStr "us-east-1" ]} |}.

(** ** The control-event extraction stage *)

Lemma typeof_undefined (v : Value) : typeof v = "undefined" ↔ v = VUndefined.
Proof. destruct v; simpl; split; intros E; (done || discriminate E). Qed.

Lemma getProp_Some (o : JSObject) k v : o !! k = Some v → getProp o k = v.
Proof. unfold getProp. by intros ->. Qed.

Lemma getProp_None (o : JSObject) k : o !! k = None → getProp o k = VUndefined.
Proof. unfold getProp. by intros ->. Qed.

Ltac run_M :=
  unfold mbind, mret, M_bind, M_ret, throw, getOperation, getObject,
    setVariables, alloc; simpl.

Section ControlEventsFacts.
Context `{Imports}.

Implicit Types (st : State) (o l : loc) (op : Operation) (obj : JSObject).

Lemma subscriber_present st o op l obj :
  operations st !! o = Some op →
  variables op = Some l →
  objects st !! l = Some obj →
  controlEventsSubscriber o st = extracted st o op obj.
Proof.
  intros Hop Hvars Hobj.
  unfold controlEventsSubscriber, destructureVariables, extracted.
  run_M. rewrite Hop Hvars. simpl. rewrite Hobj. simpl.
  destruct (decide (typeof (getProp obj CONTROL_EVENTS_KEY) ≠ "undefined"))
    as [Hdef | Hundef].
  - rewrite typeof_undefined in Hdef.
    rewrite decide_False //=. by rewrite Hop.
  - apply dec_stable in Hundef. rewrite typeof_undefined in Hundef.
    by rewrite decide_True.
Qed.

Lemma subscriber_absent st o op :
  operations st !! o = Some op →
  variables op = None →
  controlEventsSubscriber o st = (Throw (TypeError cannotDestructure), st).
Proof.
  intros Hop Hvars.
  unfold controlEventsSubscriber, destructureVariables.
  run_M. rewrite Hop Hvars. reflexivity.
Qed.

(** The stage only adds objects to the store. *)
Lemma subscriber_keeps_objects st o l obj :
  objects st !! l = Some obj →
  objects (controlEventsSubscriber o st).2 !! l = Some obj.
Proof.
  intros Hl.
  destruct (operations st !! o) as [op|] eqn:Hop; last first.
  { unfold controlEventsSubscriber. run_M. by rewrite Hop. }
  destruct (variables op) as [lv|] eqn:Hvars; last first.
  { by rewrite (subscriber_absent st o op Hop Hvars). }
  destruct (objects st !! lv) as [objv|] eqn:Hobjv; last first.
  { unfold controlEventsSubscriber, destructureVariables. run_M.
    rewrite Hop Hvars. simpl. by rewrite Hobjv. }
  rewrite (subscriber_present st o op lv objv) //. unfold extracted. simpl.
  set (rest := fresh (dom (objects st))).
  set (objects1 := <[rest := _]> (objects st)).
  assert (rest ≠ l) as Hrest.
  { intros E. apply elem_of_dom_2 in Hl. rewrite -E in Hl.
    by apply is_fresh in Hl. }
  assert (objects1 !! l = Some obj) as Hl1.
  { unfold objects1. by rewrite lookup_insert_ne. }
  rewrite lookup_insert_ne //.
  intros E. apply elem_of_dom_2 in Hl1. rewrite -E in Hl1.
  by apply is_fresh in Hl1.
Qed.

(** The stage writes no operation but its own. *)
Lemma subscriber_keeps_other_operations st o o' :
  o ≠ o' →
  operations (controlEventsSubscriber o st).2 !! o' = operations st !! o'.
Proof.
  intros Hne.
  destruct (operations st !! o) as [op|] eqn:Hop; last first.
  { unfold controlEventsSubscriber. run_M. by rewrite Hop. }
  destruct (variables op) as [lv|] eqn:Hvars; last first.
  { by rewrite (subscriber_absent st o op Hop Hvars). }
  destruct (objects st !! lv) as [objv|] eqn:Hobjv; last first.
  { unfold controlEventsSubscriber, destructureVariables. run_M.
    rewrite Hop Hvars. simpl. by rewrite Hobjv. }
  rewrite (subscriber_present st o op lv objv) //. unfold extracted. simpl.
  case_decide; [done |]. by rewrite lookup_insert_ne.
Qed.

End ControlEventsFacts.

Lemma fresh_ne (m : gmap loc JSObject) (l : loc) (x : JSObject) :
  m !! l = Some x → fresh (dom m) ≠ l.
Proof.
  intros Hl E. apply elem_of_dom_2 in Hl. rewrite -E in Hl.
  by apply is_fresh in Hl.
Qed.

Lemma fresh_None (m : gmap loc JSObject) : m !! fresh (dom m) = None.
Proof. apply not_elem_of_dom, is_fresh. Qed.

Section Extraction.
Context `{Imports}.

Implicit Types (st : State) (o l : loc) (op : Operation) (obj : JSObject).

(** What the stage leaves to observe on an operation with variables: one
    emitted object holding the extracted value under the reserved key,
    and variables that lost the key exactly when the extracted value is
    not [undefined]. *)
Lemma outcome_present st o op l obj :
  operations st !! o = Some op →
  variables op = Some l →
  objects st !! l = Some obj →
  outcome (controlEventsSubscriber o st) o =
    (Ok [Some {[ CONTROL_EVENTS_KEY := getProp obj CONTROL_EVENTS_KEY ]}],
     Some (if decide (getProp obj CONTROL_EVENTS_KEY = VUndefined)
           then obj else delete CONTROL_EVENTS_KEY obj),
     Some (context op)).
Proof.
  intros Hop Hvars Hobj.
  rewrite (subscriber_present st o op l obj) //.
  unfold outcome, extracted, variablesOf. simpl.
  set (rest := fresh (dom (objects st))).
  set (objects1 := <[rest := delete CONTROL_EVENTS_KEY obj]> (objects st)).
  assert (rest ≠ l) as Hrest by by eapply fresh_ne.
  assert (objects1 !! l = Some obj) as Hl1
    by by rewrite /objects1 lookup_insert_ne.
  assert (objects1 !! rest = Some (delete CONTROL_EVENTS_KEY obj)) as Hr1
    by by rewrite /objects1 lookup_insert_eq.
  rewrite lookup_insert_eq.
  case_decide.
  - rewrite Hop /= Hvars /=.
    rewrite lookup_insert_ne; [by eapply fresh_ne |]. by rewrite Hl1.
  - rewrite lookup_insert_eq /=.
    rewrite lookup_insert_ne; [by eapply fresh_ne |]. by rewrite Hr1.
Qed.

Lemma outcome_defined st o op l obj :
  operations st !! o = Some op →
  variables op = Some l →
  objects st !! l = Some obj →
  getProp obj CONTROL_EVENTS_KEY ≠ VUndefined →
  outcome (controlEventsSubscriber o st) o =
    (Ok [Some {[ CONTROL_EVENTS_KEY := getProp obj CONTROL_EVENTS_KEY ]}],
     Some (delete CONTROL_EVENTS_KEY obj), Some (context op)).
Proof.
  intros Hop Hvars Hobj Hdef.
  rewrite (outcome_present st o op l obj) //. by case_decide.
Qed.

Lemma outcome_undefined st o op l obj :
  operations st !! o = Some op →
  variables op = Some l →
  objects st !! l = Some obj →
  getProp obj CONTROL_EVENTS_KEY = VUndefined →
  outcome (controlEventsSubscriber o st) o =
    (Ok [Some {[ CONTROL_EVENTS_KEY := VUndefined ]}],
     Some obj, Some (context op)).
Proof.
  intros Hop Hvars Hobj Hundef.
  rewrite (outcome_present st o op l obj) // Hundef. by case_decide.
Qed.

Lemma outcome_absent st o op :
  operations st !! o = Some op →
  variables op = None →
  outcome (controlEventsSubscriber o st) o =
    (Throw (TypeError cannotDestructure), None, Some (context op)).
Proof.
  intros Hop Hvars.
  rewrite (subscriber_absent st o op Hop Hvars).
  unfold outcome, variablesOf. simpl. by rewrite Hop /= Hvars.
Qed.

(** The variables reference written back is that of a new object. *)
Lemma written_back_is_new st o op l obj :
  operations st !! o = Some op →
  variables op = Some l →
  objects st !! l = Some obj →
  getProp obj CONTROL_EVENTS_KEY ≠ VUndefined →
  ∃ l', variables <$> operations (controlEventsSubscriber o st).2 !! o
          = Some (Some l')
        ∧ objects st !! l' = None.
Proof.
  intros Hop Hvars Hobj Hdef.
  rewrite (subscriber_present st o op l obj) //. unfold extracted. simpl.
  rewrite decide_False // lookup_insert_eq /=.
  eexists. split; [done |]. apply fresh_None.
Qed.

(** The operation object is not written when the extracted value is
    [undefined]. *)
Lemma not_written_back st o op l obj :
  operations st !! o = Some op →
  variables op = Some l →
  objects st !! l = Some obj →
  getProp obj CONTROL_EVENTS_KEY = VUndefined →
  operations (controlEventsSubscriber o st).2 = operations st.
Proof.
  intros Hop Hvars Hobj Hundef.
  rewrite (subscriber_present st o op l obj) //. unfold extracted. simpl.
  by rewrite decide_True.
Qed.

Lemma emitted_of_outcome (run : Result (list Value) * State) o x vars ctx :
  outcome run o = (Ok [Some x], vars, ctx) →
  ∃ emitted, run.1 = Ok [emitted] ∧ deref run.2 emitted = Some x.
Proof.
  unfold outcome. destruct run as [[vs | e] st']; simpl; [| done].
  intros E. destruct vs as [| v [| ? ?]]; simplify_eq/=. eauto.
Qed.

End Extraction.

Section ExtractionClaims.
Context `{Imports}.

Implicit Types (st : State) (o l : loc) (op : Operation) (obj : JSObject).

(** C4: on an operation whose variables do not have the reserved key, the
    stage leaves the operation and its variables object as they are, and
    still hands the observer one object, which has the reserved key with
    the value [undefined]. *)
Theorem no_control_event_variables_unchanged st o op l obj :
  operations st !! o = Some op →
  variables op = Some l →
  objects st !! l = Some obj →
  obj !! CONTROL_EVENTS_KEY = None →
  let run := controlEventsSubscriber o st in
  operations run.2 !! o = Some op
  ∧ objects run.2 !! l = Some obj
  ∧ variablesOf run.2 o = Some obj
  ∧ ∃ emitted,
      run.1 = Ok [emitted]
      ∧ deref run.2 emitted = Some {[ CONTROL_EVENTS_KEY := VUndefined ]}
      ∧ hasProp {[ CONTROL_EVENTS_KEY := VUndefined ]} CONTROL_EVENTS_KEY.
Proof.
  intros Hop Hvars Hobj Hkey run.
  pose proof (getProp_None _ _ Hkey) as Hundef.
  pose proof (outcome_undefined st o op l obj Hop Hvars Hobj Hundef) as Hout.
  destruct (emitted_of_outcome _ _ _ _ _ Hout) as (emitted & Hrun & Hderef).
  split_and!.
  - by rewrite /run (not_written_back st o op l obj).
  - by apply subscriber_keeps_objects.
  - unfold outcome in Hout. by simplify_eq.
  - exists emitted. split_and!; [done | done |].
    rewrite /hasProp dom_singleton_L. set_solver.
Qed.

(** C2, amended: on an operation whose variables have the reserved key
    with a value other than [undefined], the stage writes back a new
    variables object, equal to the original one minus the reserved key,
    leaves the original object as it is, and hands the observer one
    object, which holds the extracted value under the reserved key. *)
Theorem control_event_extracted st o op l obj v :
  operations st !! o = Some op →
  variables op = Some l →
  objects st !! l = Some obj →
  obj !! CONTROL_EVENTS_KEY = Some v →
  v ≠ VUndefined →
  let run := controlEventsSubscriber o st in
  variablesOf run.2 o = Some (delete CONTROL_EVENTS_KEY obj)
  ∧ (∃ l', variables <$> operations run.2 !! o = Some (Some l')
           ∧ objects st !! l' = None)
  ∧ objects run.2 !! l = Some obj
  ∧ ∃ emitted,
      run.1 = Ok [emitted]
      ∧ deref run.2 emitted = Some {[ CONTROL_EVENTS_KEY := v ]}.
Proof.
  intros Hop Hvars Hobj Hkey Hdef run.
  pose proof (getProp_Some _ _ _ Hkey) as Hget.
  assert (getProp obj CONTROL_EVENTS_KEY ≠ VUndefined) as Hdef'
    by congruence.
  pose proof (outcome_defined st o op l obj Hop Hvars Hobj Hdef') as Hout.
  rewrite Hget in Hout.
  destruct (emitted_of_outcome _ _ _ _ _ Hout) as (emitted & Hrun & Hderef).
  split_and!.
  - unfold outcome in Hout. by simplify_eq.
  - by apply (written_back_is_new st o op l obj).
  - by apply subscriber_keeps_objects.
  - by exists emitted.
Qed.

(** C3, amended: on an operation that has a variables object the stage
    does not throw, whatever the object holds, and a variables object
    without the reserved key counts as no control event: the extracted
    value is [undefined].  On an operation without a variables object,
    which the type of [Operation] rules out, the destructuring throws a
    [TypeError] before anything is written or emitted. *)
Theorem reserved_key_lookup st o op :
  operations st !! o = Some op →
  let run := controlEventsSubscriber o st in
  (∀ l obj,
     variables op = Some l →
     objects st !! l = Some obj →
     ∃ emitted,
       run.1 = Ok [emitted]
       ∧ deref run.2 emitted
         = Some {[ CONTROL_EVENTS_KEY := getProp obj CONTROL_EVENTS_KEY ]}
       ∧ (obj !! CONTROL_EVENTS_KEY = None →
          getProp obj CONTROL_EVENTS_KEY = VUndefined))
  ∧ (variables op = None → run = (Throw (TypeError cannotDestructure), st)).
Proof.
  intros Hop run. split.
  - intros l obj Hvars Hobj.
    pose proof (outcome_present st o op l obj Hop Hvars Hobj) as Hout.
    destruct (emitted_of_outcome _ _ _ _ _ Hout) as (emitted & Hrun & Hderef).
    exists emitted. split_and!; [done | done | apply getProp_None].
  - intros Hvars. by apply (subscriber_absent st o op).
Qed.

(** C5, amended: after the stage ran on an operation with variables, the
    variables do not have the reserved key, unless the original variables
    held [undefined] under it: then the stage leaves the operation as it
    is, and the key stays, still holding [undefined]. *)
Theorem reserved_key_removed st o op l obj :
  operations st !! o = Some op →
  variables op = Some l →
  objects st !! l = Some obj →
  let run := controlEventsSubscriber o st in
  (obj !! CONTROL_EVENTS_KEY ≠ Some VUndefined →
   ∃ vars, variablesOf run.2 o = Some vars
           ∧ ¬ hasProp vars CONTROL_EVENTS_KEY)
  ∧ (obj !! CONTROL_EVENTS_KEY = Some VUndefined →
     variablesOf run.2 o = Some obj ∧ hasProp obj CONTROL_EVENTS_KEY).
Proof.
  intros Hop Hvars Hobj run.
  split.
  - intros Hkey.
    destruct (obj !! CONTROL_EVENTS_KEY) as [v|] eqn:Hv.
    + assert (getProp obj CONTROL_EVENTS_KEY ≠ VUndefined) as Hdef
        by (rewrite (getProp_Some _ _ _ Hv); congruence).
      pose proof (outcome_defined st o op l obj Hop Hvars Hobj Hdef) as Hout.
      exists (delete CONTROL_EVENTS_KEY obj). split.
      * unfold outcome in Hout. by simplify_eq.
      * rewrite /hasProp elem_of_dom lookup_delete_eq. by intros [? ?].
    + pose proof (outcome_undefined st o op l obj Hop Hvars Hobj
                    (getProp_None _ _ Hv)) as Hout.
      exists obj. split.
      * unfold outcome in Hout. by simplify_eq.
      * rewrite /hasProp. by apply not_elem_of_dom.
  - intros Hkey.
    pose proof (outcome_undefined st o op l obj Hop Hvars Hobj
                  (getProp_Some _ _ _ Hkey)) as Hout.
    split.
    + unfold outcome in Hout. by simplify_eq.
    + rewrite /hasProp. by apply elem_of_dom_2 in Hkey.
Qed.

End ExtractionClaims.

Section Independence.
Context `{Imports}.

(** C9: running the stage on operation [a] leaves every other operation
    [b] of the store as it is (its variables reference and its context),
    leaves the variables [b] refers to as they are, writes no object that
    was there before, even one that [a] and [b] share; a link dispatches
    [b] the same way, and the outcome of the stage on [b] is the same,
    after the run on [a] as without it. *)
Theorem extraction_is_per_operation (st : State) (a b : loc)
    (opB : Operation) :
  a ≠ b →
  operations st !! b = Some opB →
  (∀ l, variables opB = Some l → is_Some (objects st !! l)) →
  let stA := (controlEventsSubscriber a st).2 in
  operations stA !! b = Some opB
  ∧ variablesOf stA b = variablesOf st b
  ∧ (∀ l obj, objects st !! l = Some obj → objects stA !! l = Some obj)
  ∧ outcome (controlEventsSubscriber b stA) b
    = outcome (controlEventsSubscriber b st) b.
Proof.
  intros Hne HopB Hlive stA.
  assert (operations stA !! b = Some opB) as HopB'.
  { by rewrite /stA subscriber_keeps_other_operations. }
  assert (∀ l obj, objects st !! l = Some obj → objects stA !! l = Some obj)
    as Hkeep.
  { intros l obj Hl. by apply subscriber_keeps_objects. }
  split_and!; [done | | done |].
  - unfold variablesOf. rewrite HopB' HopB /=.
    destruct (variables opB) as [l|] eqn:Hvars; [| done]. simpl.
    destruct (Hlive l eq_refl) as [obj Hobj].
    by rewrite (Hkeep l obj Hobj) Hobj.
  - destruct (variables opB) as [l|] eqn:Hvars.
    + destruct (Hlive l eq_refl) as [obj Hobj].
      rewrite (outcome_present stA b opB l obj) //; [by apply Hkeep |].
      by rewrite (outcome_present st b opB l obj).
    + rewrite (outcome_absent stA b opB) //.
      by rewrite (outcome_absent st b opB).
Qed.

End Independence.

(** ** Routing and composition *)

Section Routing.
Context `{Imports}.

Implicit Types (op : Operation) (def : DefinitionNode).
Implicit Types (infoOrUrl : string + AppSyncRealTimeSubscriptionConfig).
Implicit Types (fetcher : option ApolloLink).

Lemma isSubscriptionOperation_main op def :
  getMainDefinition (query op) = Ok def →
  isSubscriptionOperation op
  = Ok (bool_decide (kind def = "OperationDefinition")
        && bool_decide (operation def = Some "subscription")).
Proof. intros Hmain. unfold isSubscriptionOperation. by rewrite Hmain. Qed.

(** A fault of the document collaborator is the fault of the predicate. *)
Lemma isSubscriptionOperation_fault op e :
  getMainDefinition (query op) = Throw e →
  isSubscriptionOperation op = Throw e.
Proof. intros Hmain. unfold isSubscriptionOperation. by rewrite Hmain. Qed.

(** The link the factory returns is the split of the two links it
    resolved, under the routing predicate. *)
Lemma factory_is_split infoOrUrl fetcher :
  built (createSubscriptionHandshakeLink infoOrUrl fetcher)
  = LinkSplit isSubscriptionOperation
      (subscriptionLinks (built (resolveLinks infoOrUrl fetcher)))
      (resultsFetcherLink (built (resolveLinks infoOrUrl fetcher))).
Proof. reflexivity. Qed.

Lemma dispatch_factory infoOrUrl fetcher op (isSubscription : bool) :
  isSubscriptionOperation op = Ok isSubscription →
  dispatch (built (createSubscriptionHandshakeLink infoOrUrl fetcher)) op
  = Ok (if isSubscription
        then subscriptionLinks (built (resolveLinks infoOrUrl fetcher))
        else resultsFetcherLink (built (resolveLinks infoOrUrl fetcher))).
Proof.
  intros Htest. rewrite factory_is_split. unfold dispatch. by rewrite Htest.
Qed.

(** C1: an operation whose main definition is an operation definition is
    handed to the subscription links when its operation type is
    [subscription], and to the results-fetcher link when it is any other
    type. *)
Theorem dispatch_by_operation_type infoOrUrl fetcher op def :
  getMainDefinition (query op) = Ok def →
  kind def = "OperationDefinition" →
  let link := built (createSubscriptionHandshakeLink infoOrUrl fetcher) in
  let links := built (resolveLinks infoOrUrl fetcher) in
  (operation def = Some "subscription" →
   dispatch link op = Ok (subscriptionLinks links))
  ∧ (operation def ≠ Some "subscription" →
     dispatch link op = Ok (resultsFetcherLink links)).
Proof.
  intros Hmain Hkind link links.
  pose proof (isSubscriptionOperation_main op def Hmain) as Htest.
  rewrite bool_decide_true // in Htest. simpl in Htest.
  split; intros Hop.
  - rewrite bool_decide_true // in Htest.
    by rewrite /link (dispatch_factory _ _ _ true).
  - rewrite bool_decide_false // in Htest.
    by rewrite /link (dispatch_factory _ _ _ false).
Qed.

(** C10: an operation whose main definition is not an operation
    definition node fails the routing predicate, whatever the node holds
    as [operation], and is handed to the results-fetcher link. *)
Theorem other_definitions_go_to_results_fetcher infoOrUrl fetcher op def :
  getMainDefinition (query op) = Ok def →
  kind def ≠ "OperationDefinition" →
  isSubscriptionOperation op = Ok false
  ∧ dispatch (built (createSubscriptionHandshakeLink infoOrUrl fetcher)) op
    = Ok (resultsFetcherLink (built (resolveLinks infoOrUrl fetcher))).
Proof.
  intros Hmain Hkind.
  pose proof (isSubscriptionOperation_main op def Hmain) as Htest.
  rewrite bool_decide_false // in Htest. simpl in Htest.
  split; [done |]. by rewrite (dispatch_factory _ _ _ false).
Qed.

End Routing.

(** Membership of a constructor call in a list of calls that is written
    out. *)
Ltac not_constructed :=
  let E := fresh "E" in
  intros E;
  repeat (apply elem_of_cons in E as [E | E]; [discriminate E |]);
  by apply elem_of_nil in E.

Ltac is_constructed :=
  repeat (apply elem_of_cons; first [ by left | right ]).

Section Composition.
Context `{Imports}.

Implicit Types (op : Operation) (fetcher : option ApolloLink).
Implicit Types (info : AppSyncRealTimeSubscriptionConfig).

(** C6: called with a URL string, the factory builds as subscription
    links the composition of three stages, in this order: the
    control-events link wrapped as the non-terminating stage
    "controlMessages", the results-fetcher link wrapped as the
    non-terminating stage "subsInfo", and a handshake link that reads
    "subsInfo"; and these are the constructor calls it makes. *)
Theorem bare_url_chain (uri : string) fetcher :
  let w := createSubscriptionHandshakeLink (inl uri) fetcher in
  let resultsFetcher := default (HttpLink uri) fetcher in
  subscriptionPath (built w)
  = Some (LinkFrom
      [NonTerminatingLink "controlMessages"
         (RequestHandlerLink controlEventsSubscriber);
       NonTerminatingLink "subsInfo" resultsFetcher;
       SubscriptionHandshakeLink "subsInfo"])
  ∧ nonSubscriptionPath (built w) = Some resultsFetcher
  ∧ constructed w
    = (match fetcher with
       | Some _ => []
       | None => [CreateHttpLink uri]
       end
       ++ [NewApolloLink;
           NewNonTerminatingLink "controlMessages";
           NewNonTerminatingLink "subsInfo";
           NewSubscriptionHandshakeLink "subsInfo";
           ApolloLinkFrom 3;
           ApolloLinkSplit])%list.
Proof. by destruct fetcher. Qed.

(** C7: called with a configuration object, the factory builds as
    subscription links one real-time handshake link, from the whole
    configuration, and constructs no non-terminating stage, under
    "controlMessages", "subsInfo" or any other name, no control-events
    link and no composition of stages. *)
Theorem structured_config_link info fetcher :
  let w := createSubscriptionHandshakeLink (inr info) fetcher in
  subscriptionPath (built w)
  = Some (AppSyncRealTimeSubscriptionHandshakeLink info)
  ∧ (∀ name, NewNonTerminatingLink name ∉ constructed w)
  ∧ (NewApolloLink ∉ constructed w)
  ∧ (∀ stages, ApolloLinkFrom stages ∉ constructed w)
  ∧ (NewAppSyncRealTimeSubscriptionHandshakeLink info ∈ constructed w).
Proof.
  destruct fetcher; simpl.
  all: split; [done |].
  all: split; [intros name; not_constructed |].
  all: split; [not_constructed |].
  all: split; [intros stages; not_constructed | is_constructed].
Qed.

(** C8: called without a results-fetcher link, the factory constructs an
    HTTP link for the configured URL, puts it on the non-subscription
    path, and an operation that is not a subscription is handed to it. *)
Theorem default_results_fetcher
    (infoOrUrl : string + AppSyncRealTimeSubscriptionConfig) op :
  isSubscriptionOperation op = Ok false →
  let w := createSubscriptionHandshakeLink infoOrUrl None in
  (CreateHttpLink (configuredUrl infoOrUrl) ∈ constructed w)
  ∧ nonSubscriptionPath (built w) = Some (HttpLink (configuredUrl infoOrUrl))
  ∧ dispatch (built w) op = Ok (HttpLink (configuredUrl infoOrUrl)).
Proof.
  intros Htest w. split_and!.
  - destruct infoOrUrl; simpl; is_constructed.
  - by destruct infoOrUrl.
  - rewrite /w (dispatch_factory _ _ _ false) //. by destruct infoOrUrl.
Qed.

(** X2: a results-fetcher link that is given is used as it is, and no HTTP
    link is constructed. *)
Lemma given_results_fetcher
    (infoOrUrl : string + AppSyncRealTimeSubscriptionConfig)
    (given : ApolloLink) :
  let w := createSubscriptionHandshakeLink infoOrUrl (Some given) in
  nonSubscriptionPath (built w) = Some given
  ∧ ∀ uri, CreateHttpLink uri ∉ constructed w.
Proof.
  destruct infoOrUrl; simpl; (split; [done |]); intros uri;
    not_constructed.
Qed.

End Composition.

Section Literal.
#[local] Existing Instance literalImports.

Local Open Scope positive_scope.

(** The documents of the three operation types, and the fragment. *)
Example subscription_is_routed_to_subscription_links :
  dispatch (built (createSubscriptionHandshakeLink (inl "https://example/graphql") None))
           (operationOf subscriptionDocument None)
  = Ok (LinkFrom
      [NonTerminatingLink "controlMessages"
         (RequestHandlerLink controlEventsSubscriber);
       NonTerminatingLink "subsInfo" (HttpLink "https://example/graphql");
       SubscriptionHandshakeLink "subsInfo"]).
Proof. reflexivity. Qed.

Example query_is_routed_to_results_fetcher :
  dispatch (built (createSubscriptionHandshakeLink (inl "https://example/graphql") None))
           (operationOf queryDocument None)
  = Ok (HttpLink "https://example/graphql").
Proof. reflexivity. Qed.

Example mutation_is_routed_to_results_fetcher :
  dispatch (built (createSubscriptionHandshakeLink (inr realtimeConfig) None))
           (operationOf mutationDocument None)
  = Ok (HttpLink "wss://example/realtime").
Proof. reflexivity. Qed.

Example subscription_is_routed_to_realtime_link :
  dispatch (built (createSubscriptionHandshakeLink (inr realtimeConfig) None))
           (operationOf subscriptionDocument None)
  = Ok (AppSyncRealTimeSubscriptionHandshakeLink realtimeConfig).
Proof. reflexivity. Qed.

Example empty_document_faults :
  ∃ e, dispatch (built (createSubscriptionHandshakeLink (inr realtimeConfig) None))
                (operationOf {| definitions := [] |} None)
       = Throw e.
Proof. eexists. reflexivity. Qed.

(** The subscription and the mutation document, through a link built from
    a URL. *)
Lemma dispatch_by_operation_type_witness :
  dispatch (built (createSubscriptionHandshakeLink (inl "https://example/graphql") None))
           (operationOf subscriptionDocument None)
  = Ok (subscriptionLinks (built (resolveLinks (inl "https://example/graphql") None)))
  ∧ dispatch (built (createSubscriptionHandshakeLink (inl "https://example/graphql") None))
             (operationOf mutationDocument None)
    = Ok (resultsFetcherLink (built (resolveLinks (inl "https://example/graphql") None))).
Proof.
  split.
  - apply (dispatch_by_operation_type (inl "https://example/graphql") None
             (operationOf subscriptionDocument None)
             (operationDefinition "subscription" "OnEvent"));
      reflexivity.
  - apply (dispatch_by_operation_type (inl "https://example/graphql") None
             (operationOf mutationDocument None)
             (operationDefinition "mutation" "PutItem"));
      [reflexivity | reflexivity | discriminate].
Defined.

(** A document whose main definition is a fragment definition. *)
Lemma other_definitions_go_to_results_fetcher_witness :
  isSubscriptionOperation (operationOf fragmentDocument None) = Ok false
  ∧ dispatch (built (createSubscriptionHandshakeLink (inl "https://example/graphql") None))
             (operationOf fragmentDocument None)
    = Ok (HttpLink "https://example/graphql").
Proof.
  apply (other_definitions_go_to_results_fetcher
           (inl "https://example/graphql") None
           (operationOf fragmentDocument None)
           (fragmentDefinition "ItemFields"));
    [reflexivity | discriminate].
Defined.

(** [createSubscriptionHandshakeLink("https://example/graphql")] and a
    query. *)
Lemma default_results_fetcher_witness :
  (CreateHttpLink "https://example/graphql"
     ∈ constructed (createSubscriptionHandshakeLink (inl "https://example/graphql") None))
  ∧ nonSubscriptionPath
      (built (createSubscriptionHandshakeLink (inl "https://example/graphql") None))
    = Some (HttpLink "https://example/graphql")
  ∧ dispatch (built (createSubscriptionHandshakeLink (inl "https://example/graphql") None))
             (operationOf queryDocument None)
    = Ok (HttpLink "https://example/graphql").
Proof.
  apply (default_results_fetcher (inl "https://example/graphql")
           (operationOf queryDocument None)).
  reflexivity.
Defined.

(** Variables [{ a: 1, [CONTROL_EVENTS_KEY]: {x: true} }]: afterwards the
    variables are [{ a: 1 }] and the emitted object holds the reference to
    [{x: true}] under the reserved key. *)
Lemma control_event_extracted_witness :
  variablesOf (controlEventsSubscriber 1 controlStore).2 1
  = Some {[ "a" := VNum 1 ]}
  ∧ ∃ emitted,
      (controlEventsSubscriber 1 controlStore).1 = Ok [emitted]
      ∧ deref (controlEventsSubscriber 1 controlStore).2 emitted
        = Some {[ "@@controlEvents" := VRef 2 ]}.
Proof.
  destruct (control_event_extracted controlStore 1
              (operationOf subscriptionDocument (Some 1)) 1
              controlVariables (VRef 2))
    as (Hvars & _ & _ & Hemitted);
    [reflexivity | reflexivity | reflexivity | reflexivity | discriminate |].
  split; [exact Hvars | exact Hemitted].
Defined.

(** Variables [{ a: 1 }]: unchanged, and [{ [CONTROL_EVENTS_KEY]: undefined }]
    is emitted. *)
Lemma no_control_event_variables_unchanged_witness :
  variablesOf (controlEventsSubscriber 1 plainStore).2 1
  = Some {[ "a" := VNum 1 ]}
  ∧ ∃ emitted,
      (controlEventsSubscriber 1 plainStore).1 = Ok [emitted]
      ∧ deref (controlEventsSubscriber 1 plainStore).2 emitted
        = Some {[ "@@controlEvents" := VUndefined ]}.
Proof.
  destruct (no_control_event_variables_unchanged plainStore 1
              (operationOf subscriptionDocument (Some 1)) 1 plainVariables)
    as (_ & _ & Hvars & emitted & Hrun & Hderef & _);
    [reflexivity | reflexivity | reflexivity | reflexivity |].
  split; [exact Hvars | exists emitted; split; [exact Hrun | exact Hderef]].
Defined.

(** Variables [{ a: 1 }]: no throw, and the extracted value is
    [undefined]. *)
Lemma reserved_key_lookup_witness :
  ∃ emitted,
    (controlEventsSubscriber 1 plainStore).1 = Ok [emitted]
    ∧ deref (controlEventsSubscriber 1 plainStore).2 emitted
      = Some {[ "@@controlEvents" := VUndefined ]}.
Proof.
  destruct (reserved_key_lookup plainStore 1
              (operationOf subscriptionDocument (Some 1)))
    as [Hpresent _]; [reflexivity |].
  destruct (Hpresent 1 plainVariables) as (emitted & Hrun & Hderef & _);
    [reflexivity | reflexivity |].
  exists emitted. split; [exact Hrun | exact Hderef].
Defined.

(** Variables [{ a: 1, [CONTROL_EVENTS_KEY]: {x: true} }]: the key is gone
    afterwards. *)
Lemma reserved_key_removed_witness :
  ∃ vars, variablesOf (controlEventsSubscriber 1 controlStore).2 1 = Some vars
          ∧ ¬ hasProp vars "@@controlEvents".
Proof.
  destruct (reserved_key_removed controlStore 1
              (operationOf subscriptionDocument (Some 1)) 1 controlVariables)
    as [Hremoved _]; [reflexivity | reflexivity | reflexivity |].
  apply Hremoved. discriminate.
Defined.

(** Two operations that share their variables object: after the stage ran
    on the first, the second still has the shared object, reserved key
    included, as its variables. *)
Lemma extraction_is_per_operation_witness :
  operations (controlEventsSubscriber 1 sharedStore).2 !! 2
  = Some (operationOf queryDocument (Some 1))
  ∧ variablesOf (controlEventsSubscriber 1 sharedStore).2 2
    = Some controlVariables.
Proof.
  destruct (extraction_is_per_operation sharedStore 1 2
              (operationOf queryDocument (Some 1)))
    as (Hop & Hvars & _ & _).
  - discriminate.
  - reflexivity.
  - intros l [= <-]. eexists. reflexivity.
  - split; [exact Hop | exact Hvars].
Defined.

(** C2, as stated, fails where the reserved key holds [undefined]: the
    variables have the key, and after the stage they are not the original
    variables minus the key. *)
Lemma control_event_undefined_not_extracted :
  operations undefinedStore !! 1
    = Some (operationOf subscriptionDocument (Some 1))
  ∧ objects undefinedStore !! 1 = Some undefinedVariables
  ∧ hasProp undefinedVariables "@@controlEvents"
  ∧ variablesOf (controlEventsSubscriber 1 undefinedStore).2 1
    = Some undefinedVariables
  ∧ undefinedVariables ≠ delete "@@controlEvents" undefinedVariables.
Proof.
  split_and!; try reflexivity.
  intros E.
  apply (f_equal (λ m : JSObject, m !! "@@controlEvents")) in E.
  discriminate E.
Qed.

(** C3, as stated, fails on an operation without variables: the stage
    throws. *)
Lemma absent_variables_throw :
  operations absentStore !! 1 = Some (operationOf subscriptionDocument None)
  ∧ controlEventsSubscriber 1 absentStore
    = (Throw (TypeError cannotDestructure), absentStore)
  ∧ ¬ ∃ emitted, (controlEventsSubscriber 1 absentStore).1 = Ok emitted.
Proof.
  split_and!; try reflexivity. intros [emitted E]. discriminate E.
Qed.

(** C5, as stated, fails where the reserved key holds [undefined]: the
    key is still there after the stage. *)
Lemma undefined_control_event_key_stays :
  variablesOf onlyUndefinedStore 1 = Some onlyUndefinedVariables
  ∧ variablesOf (controlEventsSubscriber 1 onlyUndefinedStore).2 1
    = Some onlyUndefinedVariables
  ∧ hasProp onlyUndefinedVariables "@@controlEvents".
Proof.
  split_and!; reflexivity.
Qed.

End Literal.

(** ** More on the extraction stage *)

Section StageBehaviour.
Context `{Imports}.

Implicit Types (st : State) (o l : loc) (op : Operation) (obj : JSObject).

(** The four ways a run of the stage can go. *)
Lemma subscriber_cases st o :
  (controlEventsSubscriber o st).2 = st
  ∧ (∃ e, (controlEventsSubscriber o st).1 = Throw e)
  ∨ ∃ op l obj,
      operations st !! o = Some op
      ∧ variables op = Some l
      ∧ objects st !! l = Some obj
      ∧ controlEventsSubscriber o st = extracted st o op obj.
Proof.
  destruct (operations st !! o) as [op|] eqn:Hop; last first.
  { left. unfold controlEventsSubscriber. run_M. rewrite Hop. eauto. }
  destruct (variables op) as [l|] eqn:Hvars; last first.
  { left. rewrite (subscriber_absent st o op Hop Hvars). eauto. }
  destruct (objects st !! l) as [obj|] eqn:Hobj; last first.
  { left. unfold controlEventsSubscriber, destructureVariables. run_M.
    rewrite Hop Hvars /= Hobj. eauto. }
  right. exists op, l, obj. split_and!; try done.
  by apply (subscriber_present st o op l obj).
Qed.

(** The operation after a run on an operation with variables: only its
    variables field may differ, and the variables it then refers to read
    [undefined] under the reserved key. *)
Lemma operation_after_run st o op l obj :
  operations st !! o = Some op →
  variables op = Some l →
  objects st !! l = Some obj →
  ∃ op' l' vars',
    operations (controlEventsSubscriber o st).2 !! o = Some op'
    ∧ query op' = query op
    ∧ operationName op' = operationName op
    ∧ context op' = context op
    ∧ variables op' = Some l'
    ∧ objects (controlEventsSubscriber o st).2 !! l' = Some vars'
    ∧ getProp vars' CONTROL_EVENTS_KEY = VUndefined.
Proof.
  intros Hop Hvars Hobj.
  destruct (decide (getProp obj CONTROL_EVENTS_KEY = VUndefined))
    as [Hundef | Hdef].
  - exists op, l, obj. split_and!; try done.
    + by rewrite (not_written_back st o op l obj).
    + by apply subscriber_keeps_objects.
  - rewrite (subscriber_present st o op l obj) //. unfold extracted. simpl.
    rewrite decide_False //.
    exists (withVariables op (fresh (dom (objects st)))),
      (fresh (dom (objects st))), (delete CONTROL_EVENTS_KEY obj).
    split_and!; try done.
    + by rewrite lookup_insert_eq.
    + set (rest := fresh (dom (objects st))).
      set (objects1 := <[rest := delete CONTROL_EVENTS_KEY obj]> (objects st)).
      assert (objects1 !! rest = Some (delete CONTROL_EVENTS_KEY obj)) as Hr1
        by by rewrite /objects1 lookup_insert_eq.
      rewrite lookup_insert_ne; [by eapply fresh_ne | done].
    + apply getProp_None, lookup_delete_eq.
Qed.

(** X3: control events are handed over once.  After a first run on an
    operation with variables, a second run on the same operation emits an
    object that holds [undefined] under the reserved key and leaves the
    variables as the first run left them, whatever the first run
    extracted. *)
Theorem second_run_extracts_nothing st o op l obj :
  operations st !! o = Some op →
  variables op = Some l →
  objects st !! l = Some obj →
  let st1 := (controlEventsSubscriber o st).2 in
  outcome (controlEventsSubscriber o st1) o
  = (Ok [Some {[ CONTROL_EVENTS_KEY := VUndefined ]}],
     variablesOf st1 o, Some (context op)).
Proof.
  intros Hop Hvars Hobj st1.
  destruct (operation_after_run st o op l obj Hop Hvars Hobj)
    as (op' & l' & vars' & Hop' & _ & _ & Hctx & Hvars' & Hobj' & Hundef).
  rewrite (outcome_undefined st1 o op' l' vars') //.
  by rewrite /variablesOf Hop' /= Hvars' /= Hobj' Hctx.
Qed.

(** X4: the stage writes no field of its operation but [variables], so
    the link of the factory dispatches the operation after the stage as it
    did before. *)
Theorem extraction_keeps_routing st o op
    (infoOrUrl : string + AppSyncRealTimeSubscriptionConfig)
    (fetcher : option ApolloLink) :
  operations st !! o = Some op →
  ∃ op',
    operations (controlEventsSubscriber o st).2 !! o = Some op'
    ∧ query op' = query op
    ∧ operationName op' = operationName op
    ∧ context op' = context op
    ∧ isSubscriptionOperation op' = isSubscriptionOperation op
    ∧ dispatch (built (createSubscriptionHandshakeLink infoOrUrl fetcher)) op'
      = dispatch (built (createSubscriptionHandshakeLink infoOrUrl fetcher)) op.
Proof.
  intros Hop.
  assert (∃ op', operations (controlEventsSubscriber o st).2 !! o = Some op'
                 ∧ query op' = query op
                 ∧ operationName op' = operationName op
                 ∧ context op' = context op) as (op' & Hop' & Hq & Hn & Hc).
  { destruct (subscriber_cases st o)
      as [[Hst _] | (op0 & l & obj & Hop0 & Hvars & Hobj & _)].
    - exists op. by rewrite Hst.
    - assert (op0 = op) as -> by congruence.
      destruct (operation_after_run st o op l obj Hop Hvars Hobj)
        as (op' & _ & _ & Hop' & Hq & Hn & Hc & _).
      by exists op'. }
  assert (isSubscriptionOperation op' = isSubscriptionOperation op) as Htest
    by by rewrite /isSubscriptionOperation Hq.
  exists op'. split_and!; try done.
  by rewrite !factory_is_split /dispatch Htest.
Qed.

(** X5: a run of the stage that throws has written nothing to the
    store. *)
Theorem throw_leaves_store st o e :
  (controlEventsSubscriber o st).1 = Throw e →
  (controlEventsSubscriber o st).2 = st.
Proof.
  intros Hthrow.
  destruct (subscriber_cases st o)
    as [[Hst _] | (op & l & obj & _ & _ & _ & Hrun)]; [done |].
  rewrite Hrun in Hthrow. discriminate Hthrow.
Qed.

(** X6: a run of the stage that returns has handed the observer exactly
    one value, a reference to an object that was not in the store before
    and that has the reserved key as its only property. *)
Theorem emits_one_new_object st o (emitted : list Value) :
  (controlEventsSubscriber o st).1 = Ok emitted →
  ∃ l v,
    emitted = [VRef l]
    ∧ objects st !! l = None
    ∧ objects (controlEventsSubscriber o st).2 !! l
      = Some {[ CONTROL_EVENTS_KEY := v ]}
    ∧ dom ({[ CONTROL_EVENTS_KEY := v ]} : JSObject) = {[ CONTROL_EVENTS_KEY ]}.
Proof.
  intros Hok.
  destruct (subscriber_cases st o)
    as [[_ [e He]] | (op & l & obj & _ & _ & _ & Hrun)]; [congruence |].
  rewrite Hrun in Hok |- *. unfold extracted in *. simpl in *.
  set (rest := fresh (dom (objects st))) in *.
  set (objects1 := <[rest := delete CONTROL_EVENTS_KEY obj]> (objects st)) in *.
  exists (fresh (dom objects1)), (getProp obj CONTROL_EVENTS_KEY).
  split_and!.
  - congruence.
  - destruct (objects st !! fresh (dom objects1)) as [x|] eqn:Hx; [| done].
    exfalso. apply (fresh_ne objects1 (fresh (dom objects1)) x); [| done].
    rewrite /objects1 lookup_insert_ne //.
    intros E. apply (fresh_ne objects1 rest (delete CONTROL_EVENTS_KEY obj));
      [by rewrite /objects1 lookup_insert_eq | done].
  - by rewrite lookup_insert_eq.
  - apply dom_singleton_L.
Qed.

End StageBehaviour.

Section DispatchFaults.
Context `{Imports}.

(** X1: dispatching through the link of the factory fails exactly when
    [getMainDefinition] fails on the operation's query, and with the same
    error: the routing predicate catches nothing and throws nothing of its
    own. *)
Theorem dispatch_faults_are_the_collaborators
    (infoOrUrl : string + AppSyncRealTimeSubscriptionConfig)
    (fetcher : option ApolloLink) (op : Operation) (e : Error) :
  dispatch (built (createSubscriptionHandshakeLink infoOrUrl fetcher)) op
  = Throw e
  ↔ getMainDefinition (query op) = Throw e.
Proof.
  rewrite factory_is_split /dispatch /isSubscriptionOperation.
  destruct (getMainDefinition (query op)) as [def | e']; simpl.
  - split; intros E; discriminate E.
  - split; intros [= ->]; reflexivity.
Qed.

End DispatchFaults.

Section SharedVariables.
Context `{Imports}.

(** A run on one operation leaves the variables of another readable as
    before. *)
Lemma variablesOf_other (st : State) (a b : loc) (vars : JSObject) :
  a ≠ b →
  variablesOf st a = Some vars →
  variablesOf (controlEventsSubscriber b st).2 a = Some vars.
Proof.
  intros Hne. unfold variablesOf.
  rewrite subscriber_keeps_other_operations //.
  destruct (operations st !! a) as [opA|]; [| done]. simpl.
  destruct (variables opA) as [l|]; [| done]. simpl.
  apply subscriber_keeps_objects.
Qed.

(** X7: a control event in a variables object that two operations share
    reaches both.  After the stage ran on the first and then on the second,
    the second run has emitted the same control event, and each operation
    has variables without the reserved key. *)
Theorem shared_control_event_reaches_both (st : State) (a b l : loc)
    (opA opB : Operation) (obj : JSObject) (v : Value) :
  a ≠ b →
  operations st !! a = Some opA →
  operations st !! b = Some opB →
  variables opA = Some l →
  variables opB = Some l →
  objects st !! l = Some obj →
  obj !! CONTROL_EVENTS_KEY = Some v →
  v ≠ VUndefined →
  let stA := (controlEventsSubscriber a st).2 in
  let runB := controlEventsSubscriber b stA in
  outcome runB b
  = (Ok [Some {[ CONTROL_EVENTS_KEY := v ]}],
     Some (delete CONTROL_EVENTS_KEY obj), Some (context opB))
  ∧ variablesOf runB.2 a = Some (delete CONTROL_EVENTS_KEY obj).
Proof.
  intros Hne HopA HopB HvarsA HvarsB Hobj Hkey Hdef stA runB.
  pose proof (getProp_Some _ _ _ Hkey) as Hget.
  assert (getProp obj CONTROL_EVENTS_KEY ≠ VUndefined) as Hdef'
    by congruence.
  split.
  - rewrite -Hget. apply (outcome_defined stA b opB l obj); try done.
    + by rewrite /stA subscriber_keeps_other_operations.
    + by apply subscriber_keeps_objects.
  - apply variablesOf_other; [done |].
    pose proof (outcome_defined st a opA l obj HopA HvarsA Hobj Hdef') as Hout.
    unfold outcome in Hout. by simplify_eq.
Qed.

End SharedVariables.

Section OnlySubscriptions.
Context `{Imports}.

(** X8: with the default results fetcher, an operation is handed to the
    subscription links only if its main definition is an operation
    definition of type [subscription], and every such operation is. *)
Theorem subscription_links_only_for_subscriptions
    (infoOrUrl : string + AppSyncRealTimeSubscriptionConfig)
    (op : Operation) :
  dispatch (built (createSubscriptionHandshakeLink infoOrUrl None)) op
  = Ok (subscriptionLinks (built (resolveLinks infoOrUrl None)))
  ↔ ∃ def, getMainDefinition (query op) = Ok def
           ∧ kind def = "OperationDefinition"
           ∧ operation def = Some "subscription".
Proof.
  rewrite factory_is_split /dispatch /isSubscriptionOperation.
  destruct (getMainDefinition (query op)) as [def | e]; simpl; last first.
  { split; [intros E; discriminate E | intros (def & E & _); discriminate E]. }
  destruct (decide (kind def = "OperationDefinition")) as [Hkind | Hkind];
    destruct (decide (operation def = Some "subscription")) as [Hop | Hop].
  - rewrite !bool_decide_true //. simpl. split; [| done].
    intros _. by exists def.
  - rewrite bool_decide_true // bool_decide_false //. simpl. split.
    + destruct infoOrUrl; intros E; discriminate E.
    + intros (def' & [= <-] & _ & Hop'). done.
  - rewrite bool_decide_false //. simpl. split.
    + destruct infoOrUrl; intros E; discriminate E.
    + intros (def' & [= <-] & Hkind' & _). done.
  - rewrite bool_decide_false //. simpl. split.
    + destruct infoOrUrl; intros E; discriminate E.
    + intros (def' & [= <-] & Hkind' & _). done.
Qed.

End OnlySubscriptions.

Section LiteralRuns.
#[local] Existing Instance literalImports.

Local Open Scope positive_scope.

(** Variables [{ a: 1, [CONTROL_EVENTS_KEY]: {x: true} }], the stage run
    twice: the second run emits [undefined] under the reserved key and the
    variables stay [{ a: 1 }]. *)
Lemma second_run_extracts_nothing_witness :
  outcome (controlEventsSubscriber 1 (controlEventsSubscriber 1 controlStore).2) 1
  = (Ok [Some {[ "@@controlEvents" := VUndefined ]}],
     Some {[ "a" := VNum 1 ]}, Some ∅).
Proof.
  pose proof (second_run_extracts_nothing controlStore 1
                (operationOf subscriptionDocument (Some 1)) 1 controlVariables
                eq_refl eq_refl eq_refl) as Hrun.
  exact Hrun.
Defined.

(** The subscription of [controlStore] is still a subscription for the
    link after the stage ran on it. *)
Lemma extraction_keeps_routing_witness :
  ∃ op',
    operations (controlEventsSubscriber 1 controlStore).2 !! 1 = Some op'
    ∧ dispatch (built (createSubscriptionHandshakeLink (inr realtimeConfig) None)) op'
      = Ok (AppSyncRealTimeSubscriptionHandshakeLink realtimeConfig).
Proof.
  destruct (extraction_keeps_routing controlStore 1
              (operationOf subscriptionDocument (Some 1))
              (inr realtimeConfig) None)
    as (op' & Hop' & _ & _ & _ & _ & Hdispatch); [reflexivity |].
  exists op'. split; [exact Hop' | exact Hdispatch].
Defined.

(** An operation without variables: the stage throws and the store is as
    it was. *)
Lemma throw_leaves_store_witness :
  (controlEventsSubscriber 1 absentStore).2 = absentStore.
Proof.
  apply (throw_leaves_store absentStore 1 (TypeError cannotDestructure)).
  reflexivity.
Defined.

(** Variables [{ a: 1 }]: one new object is emitted. *)
Lemma emits_one_new_object_witness :
  ∃ l v,
    [VRef 3] = [VRef l]
    ∧ objects plainStore !! l = None
    ∧ objects (controlEventsSubscriber 1 plainStore).2 !! l
      = Some {[ "@@controlEvents" := v ]}.
Proof.
  destruct (emits_one_new_object plainStore 1 [VRef 3])
    as (l & v & Hl & Hnew & Hobj & _); [reflexivity |].
  exists l, v. split; [exact Hl | split; [exact Hnew | exact Hobj]].
Defined.

(** The two operations of [sharedStore], which share their variables. *)
Lemma shared_control_event_reaches_both_witness :
  outcome (controlEventsSubscriber 2 (controlEventsSubscriber 1 sharedStore).2) 2
  = (Ok [Some {[ "@@controlEvents" := VRef 2 ]}],
     Some {[ "a" := VNum 1 ]}, Some ∅)
  ∧ variablesOf
      (controlEventsSubscriber 2 (controlEventsSubscriber 1 sharedStore).2).2 1
    = Some {[ "a" := VNum 1 ]}.
Proof.
  destruct (shared_control_event_reaches_both sharedStore 1 2 1
              (operationOf subscriptionDocument (Some 1))
              (operationOf queryDocument (Some 1))
              controlVariables (VRef 2))
    as [HrunB HvarsA];
    [discriminate | reflexivity | reflexivity | reflexivity | reflexivity
    | reflexivity | reflexivity | discriminate |].
  split; [exact HrunB | exact HvarsA].
Defined.

End LiteralRuns.
